(** * Verification of the AI-Continuous-Cloud-ATO compliance platform.

    Frontend pages (React/TypeScript) are embedded directly from their
    source: the Approvals queue, the Cloud Accounts form and the Control
    Cockpit.  The orchestration core (MCP router, approval gate, committee
    reconciler, evidence vault, review endpoint) lives in the backend, of
    which only the architecture documents are available; those parts are
    modelled from the specification and marked as such. *)

From Stdlib Require Import String Ascii QArith Qround Qabs ZArith Lia Lqa.
From stdpp Require Import base gmap strings list.

Local Open Scope string_scope.

(* ================================================================== *)
(** ** Approvals page (frontend/src/pages/Approvals.tsx)               *)
(* ================================================================== *)

Module Approvals.

(** [interface ApprovalRequest] of Approvals.tsx; [action_payload] is an
    opaque JSON object and is kept as a string. *)
Record ApprovalRequest := mkApprovalRequest {
  id : string;
  run : string;
  system : string;
  action_type : string;
  action_payload : string;
  affected_controls : list string;
  severity : string;
  status : string;
  requested_by_agent : string;
  reviewed_by : string;
  reviewed_at : option string;
  review_notes : string;
  created_at : string
}.

(** [const approvals = data?.results || [];] *)
Definition approvals_of (data : option (list ApprovalRequest)) : list ApprovalRequest :=
  match data with Some rs => rs | None => [] end.

(** [approvals.filter(a => a.status === 'pending')] *)
Definition pending (approvals : list ApprovalRequest) : list ApprovalRequest :=
  List.filter (fun a => String.eqb (status a) "pending") approvals.

(** [approvals.filter(a => a.status !== 'pending')] *)
Definition reviewed (approvals : list ApprovalRequest) : list ApprovalRequest :=
  List.filter (fun a => negb (String.eqb (status a) "pending")) approvals.

(** The ids that carry a "Review" button: only the cards rendered by
    [pending.map(approval => ...)]. *)
Definition reviewable_ids (approvals : list ApprovalRequest) : list string :=
  map id (pending approvals).

End Approvals.

(* ================================================================== *)
(** ** Cloud Accounts form (handleCreateAccount)                       *)
(* ================================================================== *)

Module CloudAccounts.

(** A JavaScript string value: its sequence of UTF-16 code units. *)
Definition jsstring := list N.

(** A Rocq string literal read as a JavaScript string of code units
    0-255 (each character is one Latin-1 code unit). *)
Definition js (s : string) : jsstring :=
  map (fun c => N_of_ascii c) (list_ascii_of_string s).

(** The code units removed by [String.prototype.trim]: the WhiteSpace
    code points (TAB, VT, FF, SPACE, NBSP, ZWNBSP U+FEFF and the Zs
    category: U+1680, U+2000-U+200A, U+202F, U+205F, U+3000) and the
    LineTerminators (LF, CR, U+2028, U+2029). *)
Definition is_js_whitespace (u : N) : bool :=
  existsb (N.eqb u) [9; 10; 11; 12; 13; 32; 160; 5760; 8232; 8233; 8239; 8287; 12288; 65279]%N
  || (N.leb 8192 u && N.leb u 8202).

(** [s.split(',')]: JavaScript splitting with a one-code-unit separator;
    the empty string splits into [[""]]. *)
Fixpoint split_on (sep : N) (s : jsstring) : list jsstring :=
  match s with
  | [] => [[]]
  | c :: rest =>
      let parts := split_on sep rest in
      if N.eqb c sep then [] :: parts
      else match parts with
           | p :: ps => (c :: p) :: ps
           | [] => [[c]]
           end
  end.

Fixpoint trim_start (s : jsstring) : jsstring :=
  match s with
  | [] => []
  | c :: rest => if is_js_whitespace c then trim_start rest else s
  end.

(** [r.trim()]: strip leading whitespace, then trailing whitespace. *)
Definition trim (s : jsstring) : jsstring :=
  rev (trim_start (rev (trim_start s))).

(** [Boolean] as the predicate of [.filter(Boolean)]: the empty string is
    the only falsy string. *)
Definition Boolean (s : jsstring) : bool :=
  match s with [] => false | _ => true end.

(** [if (v)] and [v || ...] on a string: only the empty string is falsy. *)
Definition truthy (s : string) : bool :=
  match s with EmptyString => false | _ => true end.

(** [acctRegions.split(',').map(r => r.trim()).filter(Boolean)];
    44 is the code unit of the comma. *)
Definition regions_of (acctRegions : jsstring) : list jsstring :=
  List.filter Boolean (map trim (split_on 44 acctRegions)).

(** The pipeline as the specification words it. *)
Definition spec_regions (s : jsstring) : list jsstring :=
  List.filter (fun r => negb (Nat.eqb (length r) 0)) (map trim (split_on 44 s)).

Definition all_whitespace (s : jsstring) : bool := forallb is_js_whitespace s.

(** [Array.prototype.join(sep)] on a list of strings. *)
Fixpoint join (sep : jsstring) (rs : list jsstring) : jsstring :=
  match rs with
  | [] => []
  | [r] => r
  | r :: rest => (r ++ sep ++ join sep rest)%list
  end.

(** The string does not begin with a code unit [trim] removes. *)
Definition starts_non_ws (s : jsstring) : bool :=
  match s with [] => true | c :: _ => negb (is_js_whitespace c) end.

End CloudAccounts.

(* ================================================================== *)
(** ** Control Cockpit (confidence column)                             *)
(* ================================================================== *)

Module ControlCockpit.

(** [interface Assessment]; JSON numbers are taken as exact rationals and
    [contradictions_detected: unknown[]] as a list of strings. *)
Record Assessment := mkAssessment {
  id : string;
  control_id : string;
  framework : string;
  status : string;
  confidence : Q;
  rationale : string;
  provider : string;
  evidence_sufficiency_score : option Q;
  contradictions_detected : list string;
  created_at : string
}.

(** [Number.prototype.toFixed(0)] read as an integer: for [x >= 0] the
    integer [n] nearest to [x], the larger one on a tie; for [x < 0] the
    sign is taken off first and put back on the result. *)
Definition to_fixed0 (x : Q) : Z :=
  if Qle_bool 0 x then Qfloor (x + (1 # 2)) else (- Qfloor (- x + (1 # 2)))%Z.

(** [(a.confidence * 100).toFixed(0)] in the Confidence cell. *)
Definition confidence_pct (a : Assessment) : Z := to_fixed0 (confidence a * 100)%Q.

(** Modelled from the spec: the backend [ControlAssessment] model is not
    available; the spec fixes confidence as a real number in [0,1]. *)
Definition assessment_wf (a : Assessment) : Prop := (0 <= confidence a <= 1)%Q.

End ControlCockpit.

(* ================================================================== *)
(** ** Severity and the Drift Timeline                                 *)
(* ================================================================== *)

Module Severity.

(** Modelled from the spec: the backend [Severity] choices
    ([low], [moderate], [high], [critical]) are not available. *)
Inductive Severity := Low | Moderate | High | Critical.

Definition severity_str (s : Severity) : string :=
  match s with
  | Low => "low" | Moderate => "moderate" | High => "high" | Critical => "critical"
  end.

Definition severity_values : list string := ["low"; "moderate"; "high"; "critical"].

End Severity.

Module DriftTimeline.

(** [interface DriftEvent], generic in the type of its severity: the
    frontend reads a [string], the backend row holds a [Severity].
    [baseline_value]/[current_value] are opaque JSON, kept as strings. *)
Record DriftEventOf (S : Type) := mkDriftEvent {
  id : string;
  system : string;
  provider : string;
  resource_type : string;
  resource_id : string;
  field_path : string;
  baseline_value : string;
  current_value : string;
  changed_by : string;
  changed_at : string;
  severity : S;
  affected_controls : list string;
  resolved : bool;
  created_at : string
}.
Arguments mkDriftEvent {S}.
Arguments severity {S}.

Definition DriftEvent := DriftEventOf string.

Record SeverityStyle := mkStyle { bg : string; text : string; border : string }.

(** [const severityColors: Record<string, ...>] *)
Definition severityColors (k : string) : option SeverityStyle :=
  if String.eqb k "critical" then Some (mkStyle "#fef2f2" "#991b1b" "#ef4444")
  else if String.eqb k "high" then Some (mkStyle "#fff7ed" "#9a3412" "#f97316")
  else if String.eqb k "moderate" then Some (mkStyle "#fffbeb" "#92400e" "#eab308")
  else if String.eqb k "medium" then Some (mkStyle "#fffbeb" "#92400e" "#eab308")
  else if String.eqb k "low" then Some (mkStyle "#f0fdf4" "#166534" "#22c55e")
  else if String.eqb k "info" then Some (mkStyle "#eff6ff" "#1e40af" "#3b82f6")
  else None.

Definition info_style : SeverityStyle := mkStyle "#eff6ff" "#1e40af" "#3b82f6".

(** The properties every object literal inherits from [Object.prototype]
    (with [__proto__] itself): reading one of them from [severityColors]
    gives a function or an object, not [undefined]. *)
Definition object_prototype_keys : list string :=
  ["constructor"; "__defineGetter__"; "__defineSetter__"; "hasOwnProperty";
   "__lookupGetter__"; "__lookupSetter__"; "isPrototypeOf";
   "propertyIsEnumerable"; "toString"; "valueOf"; "__proto__"; "toLocaleString"].

(** The value of a property read [severityColors[k]]. *)
Inductive PropValue :=
  | POwn (sc : SeverityStyle)   (* one of the literal's own entries *)
  | PInherited.                 (* a truthy inherited function or object *)

Definition severityColors_get (k : string) : option PropValue :=
  match severityColors k with
  | Some sc => Some (POwn sc)
  | None => if existsb (String.eqb k) object_prototype_keys then Some PInherited else None
  end.

(** [const sc = severityColors[event.severity] || severityColors.info];
    [None] when [sc] is an inherited value, whose [bg], [text] and
    [border] are all [undefined]. *)
Definition style_of (e : DriftEvent) : option SeverityStyle :=
  match severityColors_get (severity e) with
  | Some (POwn sc) => Some sc
  | Some PInherited => None
  | None => Some info_style
  end.

(** Modelled from the spec: the backend serializer of drift events is not
    available; it writes the [Severity] choice as its string value. *)
Definition serialize_drift (r : DriftEventOf Severity.Severity) : DriftEvent :=
  mkDriftEvent (id _ r) (system _ r) (provider _ r) (resource_type _ r)
    (resource_id _ r) (field_path _ r) (baseline_value _ r) (current_value _ r)
    (changed_by _ r) (changed_at _ r) (Severity.severity_str (severity r))
    (affected_controls _ r) (resolved _ r) (created_at _ r).

End DriftTimeline.

(* ================================================================== *)
(** ** Approval backend: review endpoint                              *)
(* ================================================================== *)

Module ApprovalBackend.
Import Severity.

(** Modelled from the spec: the backend [ApprovalRequest] model and the
    [POST /api/approvals/{id}/review/] view are not available.  Status is
    pending/approved/rejected; decision metadata is absent while pending. *)
Inductive ApprovalStatus := Pending | Approved | Rejected.

(** The [action: 'approved' | 'rejected'] of [reviewMutation]. *)
Inductive Decision := DApproved | DRejected.

Definition status_of_decision (d : Decision) : ApprovalStatus :=
  match d with DApproved => Approved | DRejected => Rejected end.

Definition status_str (s : ApprovalStatus) : string :=
  match s with Pending => "pending" | Approved => "approved" | Rejected => "rejected" end.

Record Request := mkRequest {
  req_id : string;
  req_run : string;
  req_system : string;
  req_action_type : string;
  req_affected_controls : list string;
  req_severity : Severity;
  req_status : ApprovalStatus;
  req_requested_by_agent : string;
  req_reviewed_by : option string;
  req_reviewed_at : option nat;
  req_review_notes : option string;
  req_created_at : string
}.

(** The JSON body [{status, reviewed_by, review_notes}]. *)
Record ReviewBody := mkReviewBody {
  body_status : Decision;
  body_reviewed_by : string;
  body_review_notes : string
}.

(** [reviewMutation]'s body (Approvals.tsx): the reviewer is the fixed
    string ['admin@example.com'], the notes are the textarea contents. *)
Definition review_body (action : Decision) (reviewNotes : string) : ReviewBody :=
  mkReviewBody action "admin@example.com" reviewNotes.

Inductive ReviewError := NotFound | NotPending.

Definition decide_request (r : Request) (b : ReviewBody) (now : nat) : Request :=
  mkRequest (req_id r) (req_run r) (req_system r) (req_action_type r)
    (req_affected_controls r) (req_severity r) (status_of_decision (body_status b))
    (req_requested_by_agent r) (Some (body_reviewed_by b)) (Some now)
    (if String.eqb (body_review_notes b) "" then None else Some (body_review_notes b))
    (req_created_at r).

Definition is_pending (s : ApprovalStatus) : bool :=
  match s with Pending => true | _ => false end.

(** The review endpoint: refuses unknown ids and requests that already
    left [pending]; otherwise records the decision and its metadata. *)
Definition review (st : gmap string Request) (rid : string) (b : ReviewBody)
    (now : nat) : ReviewError + gmap string Request :=
  match st !! rid with
  | None => inl NotFound
  | Some r =>
      if is_pending (req_status r) then inr (<[rid := decide_request r b now]> st)
      else inl NotPending
  end.

(** One accepted review. *)
Inductive review_step : gmap string Request -> gmap string Request -> Prop :=
  | ReviewStep st st' rid b now :
      review st rid b now = inr st' -> review_step st st'.

(** Any sequence of accepted reviews. *)
Inductive reviews : gmap string Request -> gmap string Request -> Prop :=
  | ReviewsNil st : reviews st st
  | ReviewsCons st st' st'' : review_step st st' -> reviews st' st'' -> reviews st st''.

(** Serialized for the frontend's [ApprovalRequest]. *)
Definition serialize_request (r : Request) : Approvals.ApprovalRequest :=
  Approvals.mkApprovalRequest (req_id r) (req_run r) (req_system r)
    (req_action_type r) "{}" (req_affected_controls r)
    (severity_str (req_severity r)) (status_str (req_status r))
    (req_requested_by_agent r)
    (match req_reviewed_by r with Some s => s | None => "" end)
    (match req_reviewed_at r with Some _ => Some "reviewed" | None => None end)
    (match req_review_notes r with Some s => s | None => "" end)
    (req_created_at r).

End ApprovalBackend.

(* ================================================================== *)
(** ** MCP Tool Router                                                 *)
(* ================================================================== *)

Module ToolRouter.

(** Modelled from the spec: the backend MCP router ([mcp/router.py]) is
    not available.  [invoke] follows the algorithm of the spec's Tool
    Router section (allowlist, rate limit, approval, provider call, result
    hash, audit record), its idempotence rule for write-type calls, and
    the MCP Router Flow diagram, whose approval branch logs
    [approval_required] before answering the agent. *)
Inductive Outcome :=
  | OSuccess | ODenied | ORateLimited | OApprovalRequired | OError | OTimeout.

Record ToolCallRecord := mkRecord {
  call_id : nat;
  run_id : string;
  agent_id : string;
  tool_name : string;
  provider : string;
  input_digest : string;
  output_hash : option string;
  outcome : Outcome
}.

(** What the external provider collaborator answers. *)
Inductive ProviderResult :=
  | PResult (body : string)
  | PError (detail : string)
  | PTimeout.

(** The declarative policy table: allowlist keyed by (agent, tool,
    provider), approval rule per tool, calls allowed per window for each
    (tool, provider) pair, and the refill period: the window counter
    starts again from 0 at every multiple of [refill_period] (a period of
    0 never refills). *)
Record Policy := mkPolicy {
  isToolAllowed : string -> string -> string -> bool;
  requiresApproval : string -> bool;
  rate_limit : nat;
  refill_period : nat
}.

(** [window_counts] maps a (tool, provider) pair to the window of its last
    counted call and the calls counted in it; [idem_cache] maps (run,
    idempotency key) to the result and hash of the write-type call made
    under that key in that run. *)
Record RouterState := mkRouterState {
  audit_log : list ToolCallRecord;
  next_call_id : nat;
  window_counts : gmap (string * string) (nat * nat);
  approval_queue : list (string * string * string);
  provider_calls : list (string * string * string);
  idem_cache : gmap (string * string) (string * string)
}.

Inductive Response :=
  | RDenied
  | RRateLimited
  | RApprovalPending
  | ROk (result hash : string)
  | RError (detail : string)
  | RTimeout.

Definition response_outcome (r : Response) : Outcome :=
  match r with
  | RDenied => ODenied
  | RRateLimited => ORateLimited
  | RApprovalPending => OApprovalRequired
  | ROk _ _ => OSuccess
  | RError _ => OError
  | RTimeout => OTimeout
  end.

(** Outcomes that come back from the provider collaborator. *)
Definition provider_reached (o : Outcome) : bool :=
  match o with OSuccess | OError | OTimeout => true | _ => false end.

(** The result recorded for a call's idempotency key in its run, if any;
    read-only calls carry no key ([None]). *)
Definition cached_result (st : RouterState) (run : string) (idem : option string)
    : option (string * string) :=
  match idem with Some k => idem_cache st !! (run, k) | None => None end.

(** One Router invocation as the caller issues it: the run, the calling
    agent, tool, provider and parameters, the idempotency key of a
    write-type call, and the time of the call. *)
Record RouterCall := mkCall {
  c_run : string;
  c_agent : string;
  c_tool : string;
  c_provider : string;
  c_params : string;
  c_idem : option string;
  c_now : nat
}.

Section Router.
Variable sha256 : string -> string.
Variable pol : Policy.
Variable call_provider : string -> string -> string -> ProviderResult.

Definition current_window (now : nat) : nat := Nat.div now (refill_period pol).

(** Calls counted for (tool, provider) in the window of [now]. *)
Definition window_count (st : RouterState) (now : nat) (tool prov : string) : nat :=
  match window_counts st !! (tool, prov) with
  | Some (w, n) => if Nat.eqb w (current_window now) then n else 0
  | None => 0
  end.

(** [checkRateLimit]: fixed-window counter per (tool, provider). *)
Definition checkRateLimit (st : RouterState) (now : nat) (tool prov : string) : bool :=
  Nat.ltb (window_count st now tool prov) (rate_limit pol).

Definition count_call (st : RouterState) (now : nat) (tool prov : string) : RouterState :=
  mkRouterState (audit_log st) (next_call_id st)
    (<[(tool, prov) := (current_window now, S (window_count st now tool prov))]>
       (window_counts st))
    (approval_queue st) (provider_calls st) (idem_cache st).

Definition raise_approval (st : RouterState) (agent tool params : string) : RouterState :=
  mkRouterState (audit_log st) (next_call_id st) (window_counts st)
    (approval_queue st ++ [(agent, tool, params)]) (provider_calls st) (idem_cache st).

Definition record_provider_call (st : RouterState) (prov tool params : string) : RouterState :=
  mkRouterState (audit_log st) (next_call_id st) (window_counts st)
    (approval_queue st) (provider_calls st ++ [(prov, tool, params)]) (idem_cache st).

(** Keep the result of a successful write-type call under its key. *)
Definition remember (st : RouterState) (run : string) (idem : option string)
    (body h : string) : RouterState :=
  match idem with
  | Some k =>
      mkRouterState (audit_log st) (next_call_id st) (window_counts st)
        (approval_queue st) (provider_calls st) (<[(run, k) := (body, h)]> (idem_cache st))
  | None => st
  end.

(** Append one audit record with a fresh call id. *)
Definition write_audit (st : RouterState) (run agent tool prov params : string)
    (h : option string) (o : Outcome) : RouterState :=
  mkRouterState
    (audit_log st ++ [mkRecord (next_call_id st) run agent tool prov (sha256 params) h o])
    (S (next_call_id st)) (window_counts st) (approval_queue st) (provider_calls st)
    (idem_cache st).

(** A write-type call whose key already has a result in this run is
    answered with that result after the policy check, without calling the
    provider or counting against the rate limit; only successful results
    are kept, so a call that failed may be retried under the same key. *)
Definition invoke (st : RouterState) (run agent tool prov params : string)
    (idem : option string) (now : nat) : Response * RouterState :=
  if negb (isToolAllowed pol agent tool prov) then
    (RDenied, write_audit st run agent tool prov params None ODenied)
  else match cached_result st run idem with
  | Some (body, h) =>
      (ROk body h, write_audit st run agent tool prov params (Some h) OSuccess)
  | None =>
  if negb (checkRateLimit st now tool prov) then
    (RRateLimited, write_audit st run agent tool prov params None ORateLimited)
  else
    let st1 := count_call st now tool prov in
    if requiresApproval pol tool then
      (RApprovalPending,
       write_audit (raise_approval st1 agent tool params) run agent tool prov params
         None OApprovalRequired)
    else
      let st2 := record_provider_call st1 prov tool params in
      match call_provider prov tool params with
      | PResult body =>
          let h := sha256 body in
          (ROk body h,
           write_audit (remember st2 run idem body h) run agent tool prov params
             (Some h) OSuccess)
      | PError d => (RError d, write_audit st2 run agent tool prov params None OError)
      | PTimeout => (RTimeout, write_audit st2 run agent tool prov params None OTimeout)
      end
  end.

(** A sequence of calls, routed in order. *)
Fixpoint invoke_all (st : RouterState) (calls : list RouterCall)
    : list Response * RouterState :=
  match calls with
  | [] => ([], st)
  | c :: rest =>
      let '(r, st1) := invoke st (c_run c) (c_agent c) (c_tool c) (c_provider c)
                         (c_params c) (c_idem c) (c_now c) in
      let '(rs, st2) := invoke_all st1 rest in
      (r :: rs, st2)
  end.

End Router.

End ToolRouter.

(* ================================================================== *)
(** ** Assessment vocabulary                                           *)
(* ================================================================== *)

Module AssessmentStatus.

(** Assessment Status choices of the README's key enumerations. *)
Inductive AssessmentStatus :=
  | Pass | Fail | Partial | NotApplicable | ManualReviewRequired.

Definition status_eqb (x y : AssessmentStatus) : bool :=
  match x, y with
  | Pass, Pass | Fail, Fail | Partial, Partial | NotApplicable, NotApplicable
  | ManualReviewRequired, ManualReviewRequired => true
  | _, _ => false
  end.

End AssessmentStatus.

(* ================================================================== *)
(** ** Committee Reconciler                                            *)
(* ================================================================== *)

Module Committee.
Import AssessmentStatus.

(** Modelled from the spec: the committee-review node of the backend is
    not available (AGENT_WORKFLOW.md only shows Agreement -> Accept,
    Disagreement -> Escalate to Human).  [reconcile] follows the spec's
    Committee Reconciler section. *)
Record Assessment := mkAssessment {
  control_id : string;
  status : AssessmentStatus;
  confidence : Q;
  rationale : string;
  evidence_refs : list string;
  committee_confirmed : bool
}.

Record Escalation := mkEscalation {
  esc_controls : list string;
  esc_evidence : list string;
  esc_first : Assessment;
  esc_second : Assessment
}.

Inductive ReconcileResult :=
  | Merged (a : Assessment)
  | Escalated (e : Escalation).

(** Agreement: take the higher-confidence assessment (the first on a
    tie) and flag it committee-confirmed. *)
Definition merge (a1 a2 : Assessment) : Assessment :=
  let hi := if Qle_bool (confidence a2) (confidence a1) then a1 else a2 in
  mkAssessment (control_id hi) (status hi) (confidence hi) (rationale hi)
    (evidence_refs hi) true.

Section Reconcile.
Variables assessor1 assessor2 : list string -> list string -> Assessment.

(** Both assessors see only the shared controls and evidence. *)
Definition reconcile (controlIds evidenceRefs : list string) : ReconcileResult :=
  let a1 := assessor1 controlIds evidenceRefs in
  let a2 := assessor2 controlIds evidenceRefs in
  if status_eqb (status a1) (status a2) then Merged (merge a1 a2)
  else Escalated (mkEscalation controlIds evidenceRefs a1 a2).

End Reconcile.

End Committee.

(* ================================================================== *)
(** ** Approval Gate                                                   *)
(* ================================================================== *)

Module ApprovalGate.
Import Severity AssessmentStatus.

(** Modelled from the spec: the backend approval gate node
    ([approval_gate.py]) is not available.  [evaluate] follows the spec's
    Approval Gate threshold rule, which extends the Approval Gate Rules
    table of AGENT_WORKFLOW.md with committee escalations. *)
Inductive Stage :=
  | ScopeResolution | ControlMapping | EvidencePlanning | EvidenceCollection
  | DriftDetection | PostureAssessment | GapAnalysis.

(** STIG finding categories; CAT I is the top severity category. *)
Inductive StigCategory := CAT_I | CAT_II | CAT_III.

Record GateAssessment := mkGateAssessment {
  ga_control : string;
  ga_status : AssessmentStatus;
  ga_severity : Severity
}.

Record Finding := mkFinding {
  f_controls : list string;
  f_category : StigCategory;
  f_open : bool;
  f_stage : Stage
}.

Record GateDrift := mkGateDrift {
  gd_controls : list string;
  gd_severity : Severity
}.

Record RunContext := mkRunContext {
  run_id : string;
  assessments : list GateAssessment;
  findings : list Finding;
  drift_events : list GateDrift;
  escalations : list Committee.Escalation
}.

Record ProposedRequest := mkProposed {
  pr_controls : list string;
  pr_severity : Severity;
  pr_reason : string
}.

Inductive GateDecision :=
  | AutoPass
  | Suspend (reqs : list ProposedRequest).

Definition assessment_triggers (a : GateAssessment) : bool :=
  match ga_status a, ga_severity a with
  | Fail, (High | Critical) => true
  | _, _ => false
  end.

Definition finding_triggers (f : Finding) : bool :=
  f_open f &&
  match f_category f with CAT_I => true | _ => false end &&
  match f_stage f with PostureAssessment => true | _ => false end.

Definition drift_triggers (d : GateDrift) : bool :=
  match gd_severity d with Critical => true | _ => false end.

(** One proposed approval request per triggering item. *)
Definition gate_requests (ctx : RunContext) : list ProposedRequest :=
  (map (fun a => mkProposed [ga_control a] (ga_severity a) "failing assessment")
       (List.filter assessment_triggers (assessments ctx)) ++
   map (fun f => mkProposed (f_controls f) Critical "CAT I finding open")
       (List.filter finding_triggers (findings ctx)) ++
   map (fun d => mkProposed (gd_controls d) Critical "critical drift")
       (List.filter drift_triggers (drift_events ctx)) ++
   map (fun e => mkProposed (Committee.esc_controls e) High "committee escalation")
       (escalations ctx))%list.

(** [evaluate(runContext) -> auto_pass | suspend(approvalRequests[])] *)
Definition evaluate (ctx : RunContext) : GateDecision :=
  match gate_requests ctx with
  | [] => AutoPass
  | reqs => Suspend reqs
  end.

End ApprovalGate.

(* ================================================================== *)
(** ** Evidence Store                                                  *)
(* ================================================================== *)

Module EvidenceStore.

(** Modelled from the spec: the evidence vault (MinIO/S3 in WORM mode)
    is not available.  Content-addressed and write-once: the uri is
    derived from the SHA-256 digest, and a put to an occupied uri is
    rejected. *)
Inductive PutError := AlreadyStored (uri : string).

Section Store.
Variable sha256 : list Byte.byte -> string.

Definition uri_of_hash (h : string) : string := "evidence/" ++ h.

Definition put (st : gmap string (list Byte.byte)) (b : list Byte.byte)
    : PutError + (gmap string (list Byte.byte) * (string * string)) :=
  let h := sha256 b in
  let uri := uri_of_hash h in
  match st !! uri with
  | Some _ => inl (AlreadyStored uri)
  | None => inr (<[uri := b]> st, (uri, h))
  end.

Definition get (st : gmap string (list Byte.byte)) (uri : string)
    : option (list Byte.byte) :=
  st !! uri.

End Store.

End EvidenceStore.

(* ================================================================== *)
(** ** Cloud Accounts page: systems, account table, HTTP errors        *)
(* ================================================================== *)

Module CloudAccountsView.
Import CloudAccounts.

(** [Array.prototype.join(sep)] on a list of strings. *)
Fixpoint join (sep : string) (rs : list string) : string :=
  match rs with
  | [] => ""
  | [r] => r
  | r :: rest => r ++ sep ++ join sep rest
  end.

(** [acct.regions?.join(', ') || '—'] in the Regions column. *)
Definition regions_cell (regions : option (list string)) : string :=
  match regions with
  | Some rs => let j := join ", " rs in if truthy j then j else "—"
  | None => "—"
  end.

(** [res.ok]: the status is in the range 200-299. *)
Definition res_ok (status : nat) : bool := Nat.leb 200 status && Nat.leb status 299.

(** [createSystem] / [createAccount], for a response received:
    [if (!res.ok) throw ...; return res.json();], where [res.json()]
    rejects when the body is not JSON (an empty 204/205 body included). *)
Definition create_throws (status : nat) (body_is_json : bool) : bool :=
  negb (res_ok status) || negb body_is_json.

(** [deleteAccount], for a response received:
    [if (!res.ok && res.status !== 204) throw ...]; the body is not read. *)
Definition delete_throws (status : nat) : bool :=
  negb (res_ok status) && negb (Nat.eqb status 204).

End CloudAccountsView.

(* ================================================================== *)
(** ** Dashboard (frontend/src/pages/Dashboard.tsx)                    *)
(* ================================================================== *)

Module Dashboard.

(** [interface ComplianceRun]; [summary: Record<string, number>] as an
    association list. *)
Record ComplianceRun := mkRun {
  id : string;
  system : string;
  status : string;
  overall_score : option Q;
  trigger : string;
  created_at : string;
  summary : list (string * Q)
}.

(** [ScoreGauge]'s [color]. *)
Definition gauge_color (score : Q) : string :=
  if Qle_bool 90 score then "#22c55e"
  else if Qle_bool 70 score then "#eab308"
  else if Qle_bool 50 score then "#f97316"
  else "#ef4444".

(** [ScoreGauge]'s caption. *)
Definition gauge_label (score : Q) : string :=
  if Qle_bool 90 score then "Strong"
  else if Qle_bool 70 score then "Moderate"
  else if Qle_bool 50 score then "Needs Improvement"
  else "At Risk".

(** [runs?.results?.[0]] *)
Definition latest_run (results : option (list ComplianceRun)) : option ComplianceRun :=
  match results with Some (r :: _) => Some r | _ => None end.

(** [latestRun?.overall_score ?? 0] *)
Definition dashboard_score (results : option (list ComplianceRun)) : Q :=
  match latest_run results with
  | Some r => match overall_score r with Some s => s | None => 0%Q end
  | None => 0%Q
  end.

Fixpoint assoc_get (k : string) (m : list (string * Q)) : option Q :=
  match m with
  | [] => None
  | (k', v) :: rest => if String.eqb k' k then Some v else assoc_get k rest
  end.

(** [summary.<key> ?? '—'] with [summary = latestRun?.summary || {}];
    [None] is rendered as the dash. *)
Definition stat_card (results : option (list ComplianceRun)) (key : string) : option Q :=
  match latest_run results with
  | Some r => assoc_get key (summary r)
  | None => None
  end.

(** Score cell of the Recent Runs table:
    [run.overall_score != null ? ... : '—']; [None] is the dash. *)
Definition run_score_cell (r : ComplianceRun) : option Q := overall_score r.

End Dashboard.

(* ================================================================== *)
(** ** Evidence Explorer (frontend/src/pages/EvidenceExplorer.tsx)     *)
(* ================================================================== *)

Module EvidenceExplorer.

Record EvidenceArtifact := mkArtifact {
  id : string;
  system : string;
  artifact_type : string;
  provider : string;
  hash_sha256 : string;
  file_size_bytes : option Q;
  control_ids : option (list string);
  collected_at : string;
  retention_policy : string;
  classification : string;
  storage_uri : string
}.

(** The number written by [x.toFixed(1)]: [n / 10] for the integer [n]
    nearest to [10 x], halves away from zero (the rounding of
    [ControlCockpit.to_fixed0]); from [10^21] on, [x] itself. *)
Definition to_fixed1 (x : Q) : Q :=
  if Qle_bool (inject_Z (10 ^ 21)) (Qabs x) then x
  else (inject_Z (ControlCockpit.to_fixed0 (x * 10)) / 10)%Q.

(** [a.file_size_bytes ? `${(a.file_size_bytes / 1024).toFixed(1)} KB` : '—']:
    null and 0 are falsy; [None] is the dash, [Some k] the number shown
    before " KB". *)
Definition size_kb (a : EvidenceArtifact) : option Q :=
  match file_size_bytes a with
  | Some b => if Qeq_bool b 0 then None else Some (to_fixed1 (b / 1024))
  | None => None
  end.

(** [a.control_ids?.slice(0, 3)] *)
Definition control_chips (a : EvidenceArtifact) : list string :=
  match control_ids a with Some l => firstn 3 l | None => [] end.

(** [a.control_ids?.length > 3 && '+' + (a.control_ids.length - 3)] *)
Definition control_overflow (a : EvidenceArtifact) : option nat :=
  match control_ids a with
  | Some l => if Nat.ltb 3 (length l) then Some (length l - 3)%nat else None
  | None => None
  end.

End EvidenceExplorer.

(* ================================================================== *)
(** ** Query strings ([URLSearchParams]) of the list pages             *)
(* ================================================================== *)

Module QueryParams.
Import CloudAccounts.

Fixpoint set_first (k v : string) (ps : list (string * string)) : list (string * string) :=
  match ps with
  | [] => []
  | (k', v') :: rest =>
      if String.eqb k' k
      then (k, v) :: List.filter (fun p => negb (String.eqb p.1 k)) rest
      else (k', v') :: set_first k v rest
  end.

(** [params.set(k, v)]: overwrite the first pair named [k] and drop the
    others, or append when there is none. *)
Definition url_set (k v : string) (ps : list (string * string)) : list (string * string) :=
  if existsb (fun p => String.eqb p.1 k) ps then set_first k v ps else (ps ++ [(k, v)])%list.

(** [params.get(k)] *)
Fixpoint url_get (k : string) (ps : list (string * string)) : option string :=
  match ps with
  | [] => None
  | (k', v) :: rest => if String.eqb k' k then Some v else url_get k rest
  end.

(** [if (v) params.set(k, v);] *)
Definition set_if (k v : string) (ps : list (string * string)) : list (string * string) :=
  if truthy v then url_set k v ps else ps.

(** ControlCockpit: framework, status and search filters. *)
Definition cockpit_params (frameworkFilter statusFilter search : string) :=
  set_if "search" search (set_if "status" statusFilter (set_if "framework" frameworkFilter [])).

(** DriftTimeline: severity and resolved filters, then the ordering. *)
Definition drift_params (severityFilter resolvedFilter : string) :=
  url_set "ordering" "-created_at"
    (set_if "resolved" resolvedFilter (set_if "severity" severityFilter [])).

(** EvidenceExplorer: artifact type and provider filters. *)
Definition evidence_params (typeFilter providerFilter : string) :=
  set_if "provider" providerFilter (set_if "artifact_type" typeFilter []).

End QueryParams.

(* ================================================================== *)
(** ** Approvals page: review history badge and review card state      *)
(* ================================================================== *)

Module ApprovalsUI.
Import Approvals ApprovalBackend.

(** Decision badge of a Review History row: background and text colour,
    [a.status === 'approved' ? green : red]. *)
Definition decision_badge (a : ApprovalRequest) : string * string :=
  if String.eqb (status a) "approved" then ("#dcfce7", "#166534")
  else ("#fecaca", "#991b1b").

(** Component state [selectedId], [reviewNotes], and the review bodies
    handed to [reviewMutation.mutate] so far. *)
Record UIState := mkUIState {
  selectedId : option string;
  reviewNotes : string;
  submitted : list (string * ReviewBody)
}.

Definition ui_init : UIState := mkUIState None "" [].

Inductive UIEvent :=
  | ClickReview (i : string)        (* the Review button of card [i] *)
  | TypeNotes (text : string)       (* onChange of the textarea *)
  | ClickCancel                     (* the Cancel button *)
  | ClickDecision (d : Decision)    (* the Approve / Reject buttons *)
  | ReviewSucceeded.                (* reviewMutation's onSuccess *)

(** The card of [selectedId] is open: it is one of the rendered pending
    cards. *)
Definition open_card (approvals : list ApprovalRequest) (st : UIState) : option string :=
  match selectedId st with
  | Some i => if existsb (String.eqb i) (reviewable_ids approvals) then Some i else None
  | None => None
  end.

(** One UI event against the currently fetched list; [None] when the
    control it needs is not on screen. *)
Definition ui_step (approvals : list ApprovalRequest) (st : UIState) (ev : UIEvent)
    : option UIState :=
  match ev with
  | ClickReview i =>
      if existsb (String.eqb i) (reviewable_ids approvals) &&
         negb (match selectedId st with Some j => String.eqb j i | None => false end)
      then Some (mkUIState (Some i) (reviewNotes st) (submitted st)) else None
  | TypeNotes text =>
      match open_card approvals st with
      | Some _ => Some (mkUIState (selectedId st) text (submitted st))
      | None => None
      end
  | ClickCancel =>
      match open_card approvals st with
      | Some _ => Some (mkUIState None "" (submitted st))
      | None => None
      end
  | ClickDecision d =>
      match open_card approvals st with
      | Some i => Some (mkUIState (selectedId st) (reviewNotes st)
                          (submitted st ++ [(i, review_body d (reviewNotes st))])%list)
      | None => None
      end
  | ReviewSucceeded =>
      match submitted st with
      | [] => None
      | _ => Some (mkUIState None "" (submitted st))
      end
  end.

(** A session: each event with the list fetched at that moment. *)
Fixpoint ui_run (st : UIState) (evs : list (list ApprovalRequest * UIEvent))
    : option UIState :=
  match evs with
  | [] => Some st
  | (apps, ev) :: rest =>
      match ui_step apps st ev with
      | Some st' => ui_run st' rest
      | None => None
      end
  end.

End ApprovalsUI.

(* ================================================================== *)
(** * Proofs                                                           *)
(* ================================================================== *)

Section ApprovalsProofs.
Import Approvals.

Lemma pending_reviewed_length (approvals : list ApprovalRequest) :
  length (pending approvals) + length (reviewed approvals) = length approvals.
Proof.
  induction approvals as [|a rest IH]; [reflexivity|].
  unfold pending, reviewed in *; simpl.
  destruct (String.eqb (status a) "pending"); simpl; lia.
Qed.

(** C9: on the Approvals page the Pending and Review History sections
    partition the fetched list: a request is listed under Pending exactly
    when its status is ["pending"], under Review History exactly when it
    is not, and the two displayed counts add up to the number of fetched
    requests. *)
Theorem approvals_sections_partition (approvals : list ApprovalRequest)
    (a : ApprovalRequest) :
  (In a (pending approvals) <-> In a approvals /\ status a = "pending") /\
  (In a (reviewed approvals) <-> In a approvals /\ status a <> "pending") /\
  length (pending approvals) + length (reviewed approvals) = length approvals.
Proof.
  unfold pending, reviewed.
  split; [|split].
  - rewrite filter_In, String.eqb_eq. tauto.
  - rewrite filter_In, Bool.negb_true_iff, String.eqb_neq. tauto.
  - apply pending_reviewed_length.
Qed.

End ApprovalsProofs.

Section CloudAccountsProofs.
Import CloudAccounts.
Local Open Scope list_scope.

Lemma trim_start_all_whitespace (s : jsstring) :
  all_whitespace s = true -> trim_start s = [].
Proof.
  induction s as [|c rest IH]; simpl; [reflexivity|].
  intros H. apply andb_prop in H as [Hc Hr]. rewrite Hc. auto.
Qed.

Lemma trim_all_whitespace (s : jsstring) :
  all_whitespace s = true -> trim s = [].
Proof.
  intros H. unfold trim. rewrite (trim_start_all_whitespace s H). reflexivity.
Qed.

Lemma split_on_all_whitespace (sep : N) (s : jsstring) :
  is_js_whitespace sep = false -> all_whitespace s = true ->
  Forall (fun p => all_whitespace p = true) (split_on sep s).
Proof.
  intros Hsep. induction s as [|c rest IH]; simpl; intros H.
  - repeat constructor.
  - apply andb_prop in H as [Hc Hr].
    specialize (IH Hr).
    destruct (N.eqb c sep) eqn:Heq.
    + apply N.eqb_eq in Heq. subst. congruence.
    + destruct (split_on sep rest) as [|p ps]; inversion IH; subst;
        constructor; simpl; rewrite ?Hc; auto.
Qed.

(** C10: the regions submitted by the Cloud Accounts form are the
    comma-separated pieces of the input, trimmed, with empty pieces
    dropped; the list never contains the empty string, and an empty or
    all-whitespace input gives the empty list.  Inputs are any JavaScript
    strings (sequences of UTF-16 code units), with the whitespace of
    [String.prototype.trim]. *)
Theorem regions_of_correct (acctRegions : jsstring) :
  regions_of acctRegions = spec_regions acctRegions /\
  ~ In [] (regions_of acctRegions) /\
  (all_whitespace acctRegions = true -> regions_of acctRegions = []).
Proof.
  split; [|split].
  - unfold regions_of, spec_regions. apply List.filter_ext.
    intros [|c r]; reflexivity.
  - unfold regions_of. rewrite filter_In. simpl. intros [_ H]. discriminate.
  - intros H. unfold regions_of.
    pose proof (split_on_all_whitespace 44 acctRegions eq_refl H) as Hall.
    induction Hall as [|p ps Hp _ IH]; [reflexivity|].
    simpl. rewrite (trim_all_whitespace p Hp). exact IH.
Qed.

End CloudAccountsProofs.

Section ControlCockpitProofs.
Import ControlCockpit.

(** C7: every assessment's confidence lies in [0,1], and the Control
    Cockpit's percentage [(confidence * 100).toFixed(0)] then lies in
    [0,100]. *)
Theorem confidence_pct_bounds (a : Assessment) (Hwf : assessment_wf a) :
  (0 <= confidence a <= 1)%Q /\ (0 <= confidence_pct a <= 100)%Z.
Proof.
  split; [exact Hwf|].
  destruct Hwf as [H0 H1]. unfold confidence_pct, to_fixed0.
  assert (Hp : (0 <= confidence a * 100)%Q).
  { apply Qmult_le_0_compat; [exact H0|discriminate]. }
  assert (Hq : (confidence a * 100 <= 100)%Q).
  { apply Qle_trans with (1 * 100)%Q.
    - apply Qmult_le_compat_r; [exact H1|discriminate].
    - discriminate. }
  apply Qle_bool_iff in Hp as Hb. rewrite Hb.
  split.
  - change 0%Z with (Qfloor 0).
    apply Qfloor_resp_le.
    apply Qle_trans with (0 + 0)%Q; [discriminate|].
    apply Qplus_le_compat; [exact Hp|discriminate].
  - change 100%Z with (Qfloor (100 + (1 # 2))).
    apply Qfloor_resp_le.
    apply Qplus_le_compat; [exact Hq|apply Qle_refl].
Qed.

Definition sample_assessment : Assessment :=
  mkAssessment "a1" "AC-2" "nist_800_53_r5" "pass" (87 # 100) "MFA enforced"
    "aws" (Some (9 # 10)) [] "2026-01-01".

Lemma confidence_pct_bounds_witness :
  assessment_wf sample_assessment /\ confidence_pct sample_assessment = 87%Z /\
  (0 <= confidence_pct sample_assessment <= 100)%Z.
Proof.
  assert (Hwf : assessment_wf sample_assessment).
  { unfold assessment_wf; simpl; split; unfold Qle; simpl; lia. }
  split; [exact Hwf|]. split; [vm_compute; reflexivity|].
  exact (proj2 (confidence_pct_bounds sample_assessment Hwf)).
Defined.

End ControlCockpitProofs.

Section SeverityProofs.
Import Severity DriftTimeline.

(** C8: the severity of every approval request and every drift event
    served by the system is one of exactly four distinct values, low,
    moderate, high and critical, each of which the Drift Timeline styles
    from its own colour entry. *)
Theorem severity_four_values :
  NoDup severity_values /\
  (forall v, In v severity_values <-> exists s, severity_str s = v) /\
  (forall r : ApprovalBackend.Request,
     In (Approvals.severity (ApprovalBackend.serialize_request r)) severity_values) /\
  (forall e : DriftEventOf Severity,
     In (severity (serialize_drift e)) severity_values /\
     severityColors (severity (serialize_drift e)) <> None).
Proof.
  split; [|split; [|split]].
  - apply (bool_decide_unpack _). vm_compute. exact I.
  - intros v. split.
    + simpl. intros [<-|[<-|[<-|[<-|[]]]]];
        [exists Low|exists Moderate|exists High|exists Critical]; reflexivity.
    + intros [s <-]. destruct s; simpl; tauto.
  - intros r. simpl. destruct (ApprovalBackend.req_severity r); simpl; tauto.
  - intros e. simpl. destruct (severity e); simpl; split; try tauto; discriminate.
Qed.

End SeverityProofs.

Section ApprovalBackendProofs.
Import ApprovalBackend.

Lemma decide_request_status (r : Request) (b : ReviewBody) (now : nat) :
  req_status (decide_request r b now) = status_of_decision (body_status b).
Proof. reflexivity. Qed.

Lemma status_of_decision_terminal (d : Decision) :
  status_of_decision d = Approved \/ status_of_decision d = Rejected.
Proof. destruct d; auto. Qed.

Lemma review_accepted (st st' : gmap string Request) (rid : string)
    (b : ReviewBody) (now : nat) :
  review st rid b now = inr st' ->
  exists r, st !! rid = Some r /\ req_status r = Pending /\
            st' = <[rid := decide_request r b now]> st.
Proof.
  unfold review. destruct (st !! rid) as [r|] eqn:Hr; [|discriminate].
  destruct (req_status r) eqn:Hs; simpl; intros H; inversion H; subst.
  eauto.
Qed.

Lemma review_step_entry (st st' : gmap string Request) (k : string) (r : Request) :
  review_step st st' -> st !! k = Some r ->
  exists r', st' !! k = Some r' /\
    (r' = r \/ (req_status r = Pending /\ req_status r' <> Pending)).
Proof.
  intros [st0 st1 rid b now Hrev] Hk.
  apply review_accepted in Hrev as (r0 & Hr0 & Hp & ->).
  destruct (decide (rid = k)) as [->|Hne].
  - rewrite lookup_insert_eq. rewrite Hk in Hr0. inversion Hr0; subst.
    eexists; split; [reflexivity|]. right. split; [exact Hp|].
    rewrite decide_request_status.
    destruct (status_of_decision_terminal (body_status b)) as [E|E]; rewrite E;
      discriminate.
  - rewrite lookup_insert_ne by exact Hne. eauto.
Qed.

Lemma reviews_entry (st st' : gmap string Request) (k : string) (r : Request) :
  reviews st st' -> st !! k = Some r ->
  exists r', st' !! k = Some r' /\
    (r' = r \/ (req_status r = Pending /\ req_status r' <> Pending)).
Proof.
  intros Hs. revert r. induction Hs as [st|st st1 st2 Hstep _ IH]; intros r Hk.
  - eauto.
  - destruct (review_step_entry st st1 k r Hstep Hk) as (r1 & Hk1 & Hr1).
    destruct (IH r1 Hk1) as (r2 & Hk2 & Hr2).
    exists r2. split; [exact Hk2|].
    destruct Hr1 as [->|[Hp Hn1]]; [exact Hr2|].
    right. split; [exact Hp|].
    destruct Hr2 as [->|[Hp1 _]]; [exact Hn1|contradiction].
Qed.

Lemma review_non_pending (st : gmap string Request) (k : string) (r : Request)
    (b : ReviewBody) (now : nat) :
  st !! k = Some r -> req_status r <> Pending -> review st k b now = inl NotPending.
Proof.
  intros Hk Hn. unfold review. rewrite Hk.
  destruct (req_status r); [contradiction|reflexivity|reflexivity].
Qed.

(** C3: along any sequence of accepted reviews, an approval request's
    status either stays as it was or moves from pending to approved or
    rejected; a request that has left pending is never changed again, and
    every further decision on it is refused. *)
Theorem approval_status_transitions (st st' : gmap string Request)
    (Hsteps : reviews st st') (k : string) (r : Request)
    (Hk : st !! k = Some r) :
  exists r', st' !! k = Some r' /\
    (req_status r <> Pending -> r' = r) /\
    (req_status r' = req_status r \/
     (req_status r = Pending /\
      (req_status r' = Approved \/ req_status r' = Rejected))) /\
    (req_status r' <> Pending ->
       forall b now, review st' k b now = inl NotPending).
Proof.
  destruct (reviews_entry st st' k r Hsteps Hk) as (r' & Hk' & Hr).
  exists r'. split; [exact Hk'|]. split; [|split].
  - intros Hn. destruct Hr as [->|[Hp _]]; [reflexivity|contradiction].
  - destruct Hr as [->|[Hp Hn]]; [left; reflexivity|right; split; [exact Hp|]].
    destruct (req_status r'); [contradiction|left|right]; reflexivity.
  - intros Hn b now. exact (review_non_pending st' k r' b now Hk' Hn).
Qed.

Definition sample_request : Request :=
  mkRequest "req-1" "run-1" "sys-1" "create_poam_item" ["AC-2"] Severity.Critical
    Pending "gap_analysis" None None None "2026-01-01".

Definition sample_store : gmap string Request := {[ "req-1" := sample_request ]}.

Definition sample_reviewed : gmap string Request :=
  match review sample_store "req-1" (review_body DApproved "ok") 7 with
  | inr st => st
  | inl _ => sample_store
  end.

Lemma approval_status_transitions_witness :
  reviews sample_store sample_reviewed /\
  exists r', sample_reviewed !! "req-1" = Some r' /\
    (req_status sample_request <> Pending -> r' = sample_request) /\
    (req_status r' = req_status sample_request \/
     (req_status sample_request = Pending /\
      (req_status r' = Approved \/ req_status r' = Rejected))) /\
    (req_status r' <> Pending ->
       forall b now, review sample_reviewed "req-1" b now = inl NotPending).
Proof.
  assert (Hs : reviews sample_store sample_reviewed).
  { eapply ReviewsCons; [|apply ReviewsNil].
    eapply (ReviewStep _ _ "req-1" (review_body DApproved "ok") 7).
    vm_compute. reflexivity. }
  split; [exact Hs|].
  apply (approval_status_transitions sample_store sample_reviewed Hs "req-1"
           sample_request).
  vm_compute. reflexivity.
Defined.

(** C4: the review endpoint takes a request id, a decision (approved or
    rejected), a reviewer identity and optional notes; it refuses the
    submission whenever the target request is not pending (or does not
    exist), and on a pending request records the decision, the reviewer
    and the notes (absent when empty). *)
Theorem review_decision_surface (st : gmap string Request) (rid : string)
    (b : ReviewBody) (now : nat) :
  ((forall r, st !! rid = Some r -> req_status r <> Pending) ->
     exists e, review st rid b now = inl e) /\
  (forall r, st !! rid = Some r -> req_status r = Pending ->
     review st rid b now = inr (<[rid := decide_request r b now]> st) /\
     req_status (decide_request r b now) = status_of_decision (body_status b) /\
     req_reviewed_by (decide_request r b now) = Some (body_reviewed_by b) /\
     req_reviewed_at (decide_request r b now) = Some now /\
     req_review_notes (decide_request r b now) =
       (if String.eqb (body_review_notes b) "" then None
        else Some (body_review_notes b))).
Proof.
  split.
  - intros Hn. destruct (st !! rid) as [r|] eqn:Hr.
    + exists NotPending. apply (review_non_pending st rid r); auto.
    + exists NotFound. unfold review. rewrite Hr. reflexivity.
  - intros r Hr Hp. unfold review. rewrite Hr, Hp. simpl.
    repeat split.
Qed.

End ApprovalBackendProofs.

Section ToolRouterProofs.
Import ToolRouter.
Local Open Scope list_scope.

Section Fixed.
Variable sha256 : string -> string.
Variable pol : Policy.
Variable call_provider : string -> string -> string -> ProviderResult.

Lemma invoke_replay (st : RouterState) (run agent tool prov params k : string)
    (now : nat) (body h : string) :
  isToolAllowed pol agent tool prov = true ->
  idem_cache st !! (run, k) = Some (body, h) ->
  invoke sha256 pol call_provider st run agent tool prov params (Some k) now =
  (ROk body h, write_audit sha256 st run agent tool prov params (Some h) OSuccess).
Proof.
  intros Ha Hc. unfold invoke. rewrite Ha. simpl. rewrite Hc. reflexivity.
Qed.

Lemma invoke_ok_cached (st st' : RouterState) (run agent tool prov params : string)
    (idem : option string) (now : nat) (k body h : string) :
  invoke sha256 pol call_provider st run agent tool prov params idem now = (ROk body h, st') ->
  idem = Some k -> idem_cache st' !! (run, k) = Some (body, h).
Proof.
  intros Hinv ->. unfold invoke in Hinv.
  destruct (isToolAllowed pol agent tool prov); simpl in Hinv; [|discriminate].
  unfold cached_result in Hinv.
  destruct (idem_cache st !! (run, k)) as [[b' h']|] eqn:Hc.
  { injection Hinv as <- <- <-. simpl. exact Hc. }
  destruct (checkRateLimit pol st now tool prov); simpl in Hinv; [|discriminate].
  destruct (requiresApproval pol tool); [discriminate|].
  destruct (call_provider prov tool params); [|discriminate|discriminate].
  injection Hinv as <- <- <-. simpl. apply lookup_insert_eq.
Qed.

Lemma invoke_one_record (st : RouterState) (run agent tool prov params : string)
    (idem : option string) (now : nat) :
  length (audit_log (invoke sha256 pol call_provider st run agent tool prov params idem now).2)
  = S (length (audit_log st)).
Proof.
  unfold invoke.
  destruct (isToolAllowed pol agent tool prov); simpl;
    [|rewrite length_app; simpl; lia].
  destruct (cached_result st run idem) as [[b h]|]; simpl;
    [rewrite length_app; simpl; lia|].
  destruct (checkRateLimit pol st now tool prov); simpl;
    [|rewrite length_app; simpl; lia].
  destruct (requiresApproval pol tool); simpl; [rewrite length_app; simpl; lia|].
  destruct (call_provider prov tool params); simpl;
    [destruct idem|..]; simpl; rewrite length_app; simpl; lia.
Qed.

End Fixed.

Local Ltac router_close :=
  repeat split; try reflexivity; try (rewrite app_nil_r; reflexivity);
  try (match goal with |- context [match ?c with Some _ => _ | None => _ end] =>
         destruct c end; simpl; rewrite ?app_nil_r; reflexivity);
  intros; congruence.

(** C1: every Tool Router invocation appends exactly one ToolCallRecord
    to the audit log, whatever the outcome, and the record's outcome is
    the one answered to the caller; the provider is called exactly when
    the outcome comes from it (success, error, timeout) and the call is
    not an idempotent replay.  When [isToolAllowed] denies the call, the
    caller gets the denial, the record says denied and no provider call is
    made.  A write-type call whose key already has a result in the run is
    answered with that result, still with its one audit record and
    without a provider call; a successful keyed call leaves its result
    under its key, so issuing it again gives the same response and no
    second provider call.  Over a sequence of calls, the audit log grows by
    one record per invocation. *)
Theorem invoke_writes_one_record (sha256 : string -> string) (pol : Policy)
    (call_provider : string -> string -> string -> ProviderResult)
    (st : RouterState) (run agent tool prov params : string)
    (idem : option string) (now : nat) :
  match invoke sha256 pol call_provider st run agent tool prov params idem now with
  | (resp, st') =>
      (exists rec,
        audit_log st' = audit_log st ++ [rec] /\
        call_id rec = next_call_id st /\
        run_id rec = run /\
        outcome rec = response_outcome resp /\
        provider_calls st' = provider_calls st ++
          (match cached_result st run idem with
           | None => if provider_reached (outcome rec) then [(prov, tool, params)] else []
           | Some _ => []
           end) /\
        (isToolAllowed pol agent tool prov = false ->
           resp = RDenied /\ outcome rec = ODenied /\
           provider_calls st' = provider_calls st) /\
        (forall body h, isToolAllowed pol agent tool prov = true ->
           cached_result st run idem = Some (body, h) ->
           resp = ROk body h /\ output_hash rec = Some h /\
           provider_calls st' = provider_calls st)) /\
      (forall k body h agent2 tool2 prov2 params2 now2,
         idem = Some k -> resp = ROk body h ->
         isToolAllowed pol agent2 tool2 prov2 = true ->
         match invoke sha256 pol call_provider st' run agent2 tool2 prov2 params2
                 (Some k) now2 with
         | (resp2, st'') => resp2 = ROk body h /\ provider_calls st'' = provider_calls st'
         end)
  end /\
  (forall calls,
     length (audit_log (invoke_all sha256 pol call_provider st calls).2) =
     length (audit_log st) + length calls).
Proof.
  split.
  - destruct (invoke sha256 pol call_provider st run agent tool prov params idem now)
      as [resp st'] eqn:Hinv.
    split.
    2:{ intros k body h agent2 tool2 prov2 params2 now2 Hk Hr Ha2. subst resp.
        rewrite (invoke_replay sha256 pol call_provider st' run agent2 tool2 prov2 params2
                   k now2 body h Ha2 (invoke_ok_cached sha256 pol call_provider
                   st st' run agent tool prov params idem now k body h Hinv Hk)).
        split; reflexivity. }
    unfold invoke in Hinv.
    destruct (isToolAllowed pol agent tool prov) eqn:Ha; simpl in Hinv.
    2:{ injection Hinv as <- <-. eexists. split; [reflexivity|]. simpl.
        router_close. }
    destruct (cached_result st run idem) as [[body h]|] eqn:Hc; simpl in Hinv.
    { injection Hinv as <- <-. eexists. split; [reflexivity|]. simpl.
      rewrite ?Hc. router_close. }
    destruct (checkRateLimit pol st now tool prov); simpl in Hinv.
    2:{ injection Hinv as <- <-. eexists. split; [reflexivity|]. simpl.
        rewrite ?Hc. router_close. }
    destruct (requiresApproval pol tool).
    { injection Hinv as <- <-. eexists. split; [reflexivity|]. simpl.
      rewrite ?Hc. router_close. }
    destruct (call_provider prov tool params); injection Hinv as <- <-;
      [destruct idem|..]; eexists; (split; [reflexivity|]); simpl;
      rewrite ?Hc; router_close.
  - intros calls. revert st. induction calls as [|c rest IH]; intros st.
    + simpl. lia.
    + simpl.
      pose proof (invoke_one_record sha256 pol call_provider st (c_run c) (c_agent c)
                    (c_tool c) (c_provider c) (c_params c) (c_idem c) (c_now c)) as Hone.
      destruct (invoke sha256 pol call_provider st (c_run c) (c_agent c) (c_tool c)
                  (c_provider c) (c_params c) (c_idem c) (c_now c)) as [r st1].
      specialize (IH st1).
      destruct (invoke_all sha256 pol call_provider st1 rest) as [rs st2].
      simpl in *. rewrite IH, Hone. lia.
Qed.

End ToolRouterProofs.

Section ApprovalGateProofs.
Import Severity AssessmentStatus ApprovalGate.
Local Open Scope list_scope.

Lemma assessment_triggers_iff (a : GateAssessment) :
  assessment_triggers a = true <->
  ga_status a = Fail /\ (ga_severity a = High \/ ga_severity a = Critical).
Proof.
  destruct a as [c st sv]; unfold assessment_triggers; simpl.
  destruct st, sv; split; intuition discriminate.
Qed.

Lemma finding_triggers_iff (f : Finding) :
  finding_triggers f = true <->
  f_open f = true /\ f_category f = CAT_I /\ f_stage f = PostureAssessment.
Proof.
  destruct f as [c cat o stg]; unfold finding_triggers; simpl.
  destruct o, cat, stg; simpl; split; intuition discriminate.
Qed.

Lemma drift_triggers_iff (d : GateDrift) :
  drift_triggers d = true <-> gd_severity d = Critical.
Proof.
  destruct d as [c sv]; unfold drift_triggers; simpl.
  destruct sv; split; intuition discriminate.
Qed.

Lemma evaluate_suspend_iff_request (ctx : RunContext) :
  (exists reqs, evaluate ctx = Suspend reqs) <-> exists r, In r (gate_requests ctx).
Proof.
  unfold evaluate. destruct (gate_requests ctx) as [|r rs].
  - split; intros [x H]; [discriminate|destruct H].
  - split; intros _; [exists r; left; reflexivity|eexists; reflexivity].
Qed.

Lemma in_mapped_filter {A B} (g : A -> B) (p : A -> bool) (l : list A) :
  (exists y, In y (map g (List.filter p l))) <-> exists x, In x l /\ p x = true.
Proof.
  split.
  - intros [y Hy]. apply in_map_iff in Hy as (x & _ & Hx).
    apply filter_In in Hx. eauto.
  - intros (x & Hx & Hp). exists (g x). apply in_map. apply filter_In. auto.
Qed.

Lemma in_mapped {A B} (g : A -> B) (l : list A) :
  (exists y, In y (map g l)) <-> exists x, In x l.
Proof.
  split.
  - intros [y Hy]. apply in_map_iff in Hy as (x & _ & Hx). eauto.
  - intros [x Hx]. exists (g x). apply in_map. exact Hx.
Qed.

Lemma exists_in_app {A} (l1 l2 : list A) :
  (exists x, In x (l1 ++ l2)) <-> (exists x, In x l1) \/ (exists x, In x l2).
Proof.
  split.
  - intros [x Hx]. apply in_app_iff in Hx as [H|H]; eauto.
  - intros [[x Hx]|[x Hx]]; exists x; apply in_app_iff; auto.
Qed.

(** C2: the Approval Gate suspends exactly when a critical- or
    high-severity failing assessment, an open CAT I finding from the
    posture-assessment stage, a critical drift event or a committee
    escalation exists, and auto-passes in every other case. *)
Theorem evaluate_suspend_iff (ctx : RunContext) :
  ((exists reqs, evaluate ctx = Suspend reqs) <->
   (exists a, In a (assessments ctx) /\ ga_status a = Fail /\
              (ga_severity a = High \/ ga_severity a = Critical)) \/
   (exists f, In f (findings ctx) /\ f_open f = true /\ f_category f = CAT_I /\
              f_stage f = PostureAssessment) \/
   (exists d, In d (drift_events ctx) /\ gd_severity d = Critical) \/
   (exists e, In e (escalations ctx))) /\
  (evaluate ctx = AutoPass <-> ~ exists reqs, evaluate ctx = Suspend reqs).
Proof.
  split.
  - rewrite evaluate_suspend_iff_request. unfold gate_requests.
    rewrite !exists_in_app, !in_mapped_filter, in_mapped.
    split; intros [H|[H|[H|H]]];
      [left|right; left|right; right; left|right; right; right|
       left|right; left|right; right; left|right; right; right];
      try exact H; destruct H as [x [Hx Hp]]; exists x; split; try exact Hx;
      first [apply assessment_triggers_iff | apply finding_triggers_iff
            | apply drift_triggers_iff]; exact Hp.
  - destruct (evaluate ctx) as [|reqs].
    + split; [intros _ [r H]; discriminate|reflexivity].
    + split; [discriminate|intros H; exfalso; apply H; eauto].
Qed.

Definition ac2_context : RunContext :=
  mkRunContext "run-1" [mkGateAssessment "AC-2" Fail Critical] [] [] [].

(** The spec's gap-analysis scenario: one critical failing assessment on
    AC-2 suspends the run with one request referencing AC-2. *)
Example ac2_scenario :
  evaluate ac2_context =
  Suspend [mkProposed ["AC-2"] Critical "failing assessment"].
Proof. reflexivity. Qed.

End ApprovalGateProofs.

Section CommitteeProofs.
Import AssessmentStatus Committee.

Lemma status_eqb_iff (x y : AssessmentStatus) : status_eqb x y = true <-> x = y.
Proof. destruct x, y; simpl; split; intros H; congruence. Qed.

Lemma merge_picks_higher (a1 a2 : Assessment) :
  exists hi, (hi = a1 \/ hi = a2) /\
    (confidence a1 <= confidence hi)%Q /\ (confidence a2 <= confidence hi)%Q /\
    merge a1 a2 = mkAssessment (control_id hi) (status hi) (confidence hi)
                    (rationale hi) (evidence_refs hi) true.
Proof.
  unfold merge. destruct (Qle_bool (confidence a2) (confidence a1)) eqn:Hle.
  - apply Qle_bool_iff in Hle. exists a1. repeat split; auto. apply Qle_refl.
  - exists a2. repeat split; auto; [|apply Qle_refl].
    apply Qlt_le_weak. apply Qnot_le_lt. intros H.
    apply Qle_bool_iff in H. congruence.
Qed.

(** C5: when the two assessors agree on the status, [reconcile] returns
    a merged, committee-confirmed assessment carrying the rationale of
    the higher-confidence assessment; when their statuses differ in any
    way, it returns an escalation record and never a merged assessment. *)
Theorem reconcile_merge_or_escalate
    (assessor1 assessor2 : list string -> list string -> Assessment)
    (controlIds evidenceRefs : list string) :
  (status (assessor1 controlIds evidenceRefs) =
   status (assessor2 controlIds evidenceRefs) ->
   exists m hi,
     reconcile assessor1 assessor2 controlIds evidenceRefs = Merged m /\
     (hi = assessor1 controlIds evidenceRefs \/ hi = assessor2 controlIds evidenceRefs) /\
     (confidence (assessor1 controlIds evidenceRefs) <= confidence hi)%Q /\
     (confidence (assessor2 controlIds evidenceRefs) <= confidence hi)%Q /\
     rationale m = rationale hi /\
     status m = status (assessor1 controlIds evidenceRefs) /\
     committee_confirmed m = true) /\
  (status (assessor1 controlIds evidenceRefs) <>
   status (assessor2 controlIds evidenceRefs) ->
   reconcile assessor1 assessor2 controlIds evidenceRefs =
     Escalated (mkEscalation controlIds evidenceRefs
                  (assessor1 controlIds evidenceRefs)
                  (assessor2 controlIds evidenceRefs)) /\
   forall m, reconcile assessor1 assessor2 controlIds evidenceRefs <> Merged m).
Proof.
  unfold reconcile.
  set (a1 := assessor1 controlIds evidenceRefs).
  set (a2 := assessor2 controlIds evidenceRefs).
  split.
  - intros Heq.
    assert (Hb : status_eqb (status a1) (status a2) = true) by
      (apply status_eqb_iff; exact Heq).
    rewrite Hb.
    destruct (merge_picks_higher a1 a2) as (hi & Hhi & H1 & H2 & Hm).
    exists (merge a1 a2), hi. rewrite Hm. simpl.
    repeat split; auto.
    destruct Hhi as [->| ->]; [reflexivity|symmetry; exact Heq].
  - intros Hne.
    destruct (status_eqb (status a1) (status a2)) eqn:Hb.
    + apply status_eqb_iff in Hb. contradiction.
    + split; [reflexivity|]. intros m. discriminate.
Qed.

End CommitteeProofs.

Section EvidenceStoreProofs.
Import EvidenceStore.

(** C6: a [put] either stores the bytes at the uri derived from their
    SHA-256 digest, which must have been free, after which [get] at that
    uri returns bytes whose digest is the digest [put] returned and every
    earlier entry is kept as it was; or it is rejected because that uri
    is already occupied.  An existing uri is never silently replaced. *)
Theorem put_get_integrity (sha256 : list Byte.byte -> string)
    (st : gmap string (list Byte.byte)) (b : list Byte.byte) :
  match put sha256 st b with
  | inr (st', (uri, h)) =>
      st !! uri = None /\
      (exists b', get st' uri = Some b' /\ sha256 b' = h) /\
      (forall u v, st !! u = Some v -> st' !! u = Some v)
  | inl (AlreadyStored uri) =>
      uri = uri_of_hash (sha256 b) /\ is_Some (st !! uri)
  end.
Proof.
  unfold put.
  destruct (st !! uri_of_hash (sha256 b)) as [v|] eqn:Hu.
  - split; [reflexivity|]. rewrite Hu. eauto.
  - split; [exact Hu|]. split.
    + exists b. unfold get. rewrite lookup_insert_eq. auto.
    + intros u v Hv. destruct (decide (uri_of_hash (sha256 b) = u)) as [<-|Hne].
      * congruence.
      * rewrite lookup_insert_ne by exact Hne. exact Hv.
Qed.

End EvidenceStoreProofs.

Section RegionsRoundTrip.
Import CloudAccounts.
Local Open Scope list_scope.

Lemma trim_start_starts (s : jsstring) : starts_non_ws (trim_start s) = true.
Proof.
  induction s as [|c s IH]; simpl; [reflexivity|].
  destruct (is_js_whitespace c) eqn:Hc; simpl; [exact IH|rewrite Hc; reflexivity].
Qed.

Lemma trim_start_id (s : jsstring) : starts_non_ws s = true -> trim_start s = s.
Proof.
  destruct s as [|c s]; simpl; [reflexivity|].
  destruct (is_js_whitespace c); simpl; [discriminate|reflexivity].
Qed.

Lemma trim_start_suffix (s : jsstring) : exists p, s = p ++ trim_start s.
Proof.
  induction s as [|c s [p Hp]]; simpl; [exists []; reflexivity|].
  destruct (is_js_whitespace c).
  - exists (c :: p). simpl. congruence.
  - exists []. reflexivity.
Qed.

Lemma starts_non_ws_app (a b : jsstring) :
  a <> [] -> starts_non_ws (a ++ b) = starts_non_ws a.
Proof. destruct a; simpl; [congruence|reflexivity]. Qed.

Lemma trim_idempotent (s : jsstring) : trim (trim s) = trim s.
Proof.
  unfold trim.
  set (v := trim_start s).
  assert (Hv : starts_non_ws v = true) by apply trim_start_starts.
  set (u := trim_start (rev v)).
  assert (Hu : starts_non_ws u = true) by apply trim_start_starts.
  assert (Hru : starts_non_ws (rev u) = true).
  { destruct (trim_start_suffix (rev v)) as [p Hp]. fold u in Hp.
    destruct u as [|c u'] eqn:Eu; [reflexivity|].
    rewrite <- Eu in *.
    assert (Hne : rev u <> []).
    { intros H. assert (u = []) as Hnil.
      { rewrite <- (rev_involutive u), H. reflexivity. }
      rewrite Eu in Hnil. discriminate. }
    assert (Hvr : v = rev u ++ rev p).
    { rewrite <- (rev_involutive v), Hp, rev_app_distr. reflexivity. }
    rewrite Hvr in Hv. rewrite starts_non_ws_app in Hv by exact Hne. exact Hv. }
  rewrite (trim_start_id (rev u) Hru), rev_involutive.
  rewrite (trim_start_id u Hu). reflexivity.
Qed.

Lemma not_in_trim_start (c : N) (s : jsstring) :
  ~ In c s -> ~ In c (trim_start s).
Proof.
  destruct (trim_start_suffix s) as [p Hp]. intros H Hin.
  apply H. rewrite Hp. apply in_or_app. right. exact Hin.
Qed.

Lemma not_in_trim (c : N) (s : jsstring) : ~ In c s -> ~ In c (trim s).
Proof.
  intros H. unfold trim. rewrite <- in_rev.
  apply not_in_trim_start. rewrite <- in_rev. apply not_in_trim_start. exact H.
Qed.

Lemma split_on_pieces (sep : N) (s : jsstring) :
  Forall (fun p => ~ In sep p) (split_on sep s).
Proof.
  induction s as [|c s IH]; simpl.
  - repeat constructor. simpl. tauto.
  - destruct (N.eqb_spec c sep) as [E|E].
    + constructor; [simpl; tauto|exact IH].
    + destruct (split_on sep s) as [|p ps]; inversion IH; subst;
        constructor; simpl; auto; intros [H|H]; auto.
Qed.

Lemma split_on_no_sep (sep : N) (a : jsstring) :
  ~ In sep a -> split_on sep a = [a].
Proof.
  induction a as [|c a IH]; simpl; intros H; [reflexivity|].
  destruct (N.eqb_spec c sep) as [E|E]; [subst; tauto|].
  rewrite IH by tauto. reflexivity.
Qed.

Lemma split_on_app_sep (sep : N) (a b : jsstring) :
  ~ In sep a -> split_on sep (a ++ sep :: b) = a :: split_on sep b.
Proof.
  induction a as [|c a IH]; simpl; intros H.
  - rewrite N.eqb_refl. reflexivity.
  - destruct (N.eqb_spec c sep) as [E|E]; [subst; tauto|].
    rewrite IH by tauto. reflexivity.
Qed.

Lemma split_on_space (x : jsstring) :
  split_on 44 (32%N :: x) =
  match split_on 44 x with [] => [[32%N]] | p :: ps => (32%N :: p) :: ps end.
Proof. reflexivity. Qed.

Lemma split_join_cons (r : jsstring) (rest : list jsstring) :
  Forall (fun x => ~ In 44%N x) (r :: rest) ->
  split_on 44 (join [44; 32]%N (r :: rest)) = r :: map (cons 32%N) rest.
Proof.
  revert r. induction rest as [|r2 rest IH]; intros r Hall.
  - inversion Hall; subst. simpl. apply split_on_no_sep. assumption.
  - inversion Hall as [|? ? Hr Hrest]; subst.
    change (join [44; 32]%N (r :: r2 :: rest))
      with (r ++ 44%N :: 32%N :: join [44; 32]%N (r2 :: rest)).
    rewrite (split_on_app_sep 44 r _ Hr), split_on_space, (IH r2 Hrest).
    reflexivity.
Qed.

Lemma trim_space (x : jsstring) : trim (32%N :: x) = trim x.
Proof. reflexivity. Qed.

Lemma regions_of_join_good (rs : list jsstring) :
  Forall (fun r => r <> [] /\ ~ In 44%N r /\ trim r = r) rs ->
  regions_of (join [44; 32]%N rs) = rs.
Proof.
  intros Hgood.
  destruct rs as [|r rest]; [reflexivity|].
  unfold regions_of.
  rewrite split_join_cons by (eapply Forall_impl; [exact Hgood|]; simpl; tauto).
  inversion Hgood as [|? ? [Hne [_ Htr]] Hrest]; subst.
  simpl. rewrite Htr.
  destruct r as [|c r']; [congruence|]. simpl. f_equal.
  clear Hgood Htr Hne.
  induction Hrest as [|x xs [Hx [_ Htx]] _ IH]; [reflexivity|].
  simpl. rewrite trim_space, Htx. destruct x; [congruence|]. simpl. f_equal. exact IH.
Qed.

Lemma regions_of_good (acctRegions : jsstring) :
  Forall (fun r => r <> [] /\ ~ In 44%N r /\ trim r = r) (regions_of acctRegions).
Proof.
  apply List.Forall_forall. intros x Hx. unfold regions_of in Hx.
  apply filter_In in Hx as [Hx Ht]. apply in_map_iff in Hx as (p & <- & Hp).
  pose proof (split_on_pieces 44 acctRegions) as Hall.
  rewrite List.Forall_forall in Hall. specialize (Hall p Hp).
  split; [intros E; rewrite E in Ht; discriminate|].
  split; [apply not_in_trim; exact Hall|apply trim_idempotent].
Qed.

(** X1: a list of regions, each non-empty, comma-free and already
    trimmed (of every whitespace code unit [String.prototype.trim]
    removes), joined with ", " and typed into the account form, is
    submitted as the same list. *)
Theorem regions_join_roundtrip (rs : list jsstring)
    (Hgood : Forall (fun r => r <> [] /\ ~ In 44%N r /\ trim r = r) rs) :
  regions_of (join [44; 32]%N rs) = rs.
Proof. exact (regions_of_join_good rs Hgood). Qed.

Lemma regions_join_roundtrip_witness :
  regions_of (join [44; 32]%N [js "us-east-1"; [12354%N; 12288%N; 12356%N]]) =
    [js "us-east-1"; [12354%N; 12288%N; 12356%N]].
Proof.
  apply regions_join_roundtrip.
  repeat constructor; try discriminate; try reflexivity; simpl; intuition discriminate.
Defined.

(** X2: every region the Cloud Accounts form submits, for any input
    string, is non-empty, contains no comma and has no leading or trailing
    code unit that [String.prototype.trim] removes; hence joining the
    submitted list with ", " and submitting that text again gives the same
    list. *)
Theorem regions_of_stable (acctRegions : jsstring) :
  Forall (fun r => r <> [] /\ ~ In 44%N r /\ trim r = r) (regions_of acctRegions) /\
  regions_of (join [44; 32]%N (regions_of acctRegions)) = regions_of acctRegions.
Proof.
  split; [apply regions_of_good|].
  apply regions_of_join_good, regions_of_good.
Qed.

End RegionsRoundTrip.

Section CloudAccountsViewProofs.
Import CloudAccountsView.

(** X3: the Regions column shows the dash only for a missing or empty
    region list (or the single empty name); any other list is shown as its
    comma-separated join. *)
Theorem regions_cell_dash (rs : list string) (Hne : rs <> [""]) :
  regions_cell (Some rs) = match rs with [] => "—" | _ => join ", " rs end.
Proof.
  destruct rs as [|r [|r2 rest]]; [reflexivity| |].
  - destruct r as [|c r]; [congruence|reflexivity].
  - unfold regions_cell.
    change (join ", " (r :: r2 :: rest))
      with (r ++ String "," (String " " (join ", " (r2 :: rest)))).
    destruct r; reflexivity.
Qed.

Lemma regions_cell_dash_witness :
  regions_cell (Some ["us-east-1"; "us-west-2"]) = join ", " ["us-east-1"; "us-west-2"].
Proof. exact (regions_cell_dash ["us-east-1"; "us-west-2"] ltac:(discriminate)). Defined.

(** X5: [deleteAccount] throws exactly on the statuses outside 200-299:
    a 204 is already [res.ok], so its extra [res.status !== 204] test
    never changes the outcome.  [createSystem]/[createAccount] throw on
    those same statuses and, in addition, on a 2xx response whose body is
    not JSON, such as an empty 204 body, on which [deleteAccount] does not
    throw. *)
Theorem delete_throws_iff_not_ok (status : nat) (body_is_json : bool) :
  delete_throws status = negb (res_ok status) /\
  create_throws status body_is_json = delete_throws status || negb body_is_json.
Proof.
  assert (Hd : delete_throws status = negb (res_ok status)).
  { unfold delete_throws.
    destruct (res_ok status) eqn:E; [reflexivity|]. simpl.
    destruct (Nat.eqb_spec status 204); [subst; discriminate E|reflexivity]. }
  split; [exact Hd|]. rewrite Hd. reflexivity.
Qed.

End CloudAccountsViewProofs.

Section DashboardProofs.
Import Dashboard.

Lemma Qle_bool_false (x y : Q) : Qle_bool x y = false -> (y < x)%Q.
Proof.
  intros H. apply Qnot_le_lt. intros Hle. apply Qle_bool_iff in Hle. congruence.
Qed.

(** X6: the score gauge's colour and caption always agree: the score
    falls in exactly one of four bands (>= 90, 70-90, 50-70, < 50), each
    with its own caption and colour. *)
Theorem gauge_bands (score : Q) :
  (gauge_label score = "Strong" /\ gauge_color score = "#22c55e" /\ 90 <= score)%Q \/
  (gauge_label score = "Moderate" /\ gauge_color score = "#eab308" /\
     70 <= score /\ score < 90)%Q \/
  (gauge_label score = "Needs Improvement" /\ gauge_color score = "#f97316" /\
     50 <= score /\ score < 70)%Q \/
  (gauge_label score = "At Risk" /\ gauge_color score = "#ef4444" /\ score < 50)%Q.
Proof.
  unfold gauge_label, gauge_color.
  destruct (Qle_bool 90 score) eqn:E90.
  { left. apply Qle_bool_iff in E90. auto. }
  apply Qle_bool_false in E90.
  destruct (Qle_bool 70 score) eqn:E70.
  { right; left. apply Qle_bool_iff in E70. auto. }
  apply Qle_bool_false in E70.
  destruct (Qle_bool 50 score) eqn:E50.
  { right; right; left. apply Qle_bool_iff in E50. auto. }
  apply Qle_bool_false in E50. right; right; right. auto.
Qed.

(** X7: when there is no run, or the latest run has no score yet, the
    Dashboard gauge shows a score of 0 as "At Risk" in red (while the runs
    table shows the dash for that run). *)
Theorem dashboard_null_score_at_risk (results : option (list ComplianceRun))
    (Hnull : forall r, latest_run results = Some r -> overall_score r = None) :
  dashboard_score results = 0%Q /\
  gauge_label (dashboard_score results) = "At Risk" /\
  gauge_color (dashboard_score results) = "#ef4444".
Proof.
  assert (H0 : dashboard_score results = 0%Q).
  { unfold dashboard_score. destruct (latest_run results) as [r|] eqn:E; [|reflexivity].
    rewrite (Hnull r eq_refl). reflexivity. }
  rewrite H0. auto.
Qed.

Definition pending_run : ComplianceRun :=
  mkRun "run-1" "sys-1" "running" None "manual" "2025-01-01T00:00:00Z" [].

Lemma dashboard_null_score_at_risk_witness :
  (forall r, latest_run (Some [pending_run]) = Some r -> overall_score r = None) /\
  dashboard_score (Some [pending_run]) = 0%Q /\
  gauge_label (dashboard_score (Some [pending_run])) = "At Risk" /\
  gauge_color (dashboard_score (Some [pending_run])) = "#ef4444".
Proof.
  assert (H : forall r, latest_run (Some [pending_run]) = Some r -> overall_score r = None).
  { intros r E. injection E as <-. reflexivity. }
  split; [exact H|]. exact (dashboard_null_score_at_risk (Some [pending_run]) H).
Defined.

End DashboardProofs.

Section EvidenceExplorerProofs.
Import EvidenceExplorer.

Lemma to_fixed0_close (y : Q) :
  (- (1 # 2) <= inject_Z (ControlCockpit.to_fixed0 y) - y <= 1 # 2)%Q.
Proof.
  unfold ControlCockpit.to_fixed0. destruct (Qle_bool 0 y).
  - pose proof (Qfloor_le (y + (1 # 2))) as H1.
    pose proof (Qlt_floor (y + (1 # 2))) as H2.
    rewrite inject_Z_plus in H2. change (inject_Z 1) with 1%Q in H2. lra.
  - pose proof (Qfloor_le (- y + (1 # 2))) as H1.
    pose proof (Qlt_floor (- y + (1 # 2))) as H2.
    rewrite inject_Z_plus in H2. rewrite inject_Z_opp. change (inject_Z 1) with 1%Q in H2. lra.
Qed.

Lemma to_fixed1_close (x : Q) : (- (1 # 20) <= to_fixed1 x - x <= 1 # 20)%Q.
Proof.
  unfold to_fixed1. destruct (Qle_bool _ _); [lra|].
  pose proof (to_fixed0_close (x * 10)) as H. unfold Qdiv. change (/ 10)%Q with (1 # 10)%Q. lra.
Qed.

Lemma to_fixed1_small (x : Q) : (0 < x)%Q -> (x < 1 # 20)%Q -> (to_fixed1 x == 0)%Q.
Proof.
  intros H0 H1. unfold to_fixed1.
  assert (Hnot : Qle_bool (inject_Z (10 ^ 21)) (Qabs x) = false).
  { apply Bool.not_true_iff_false. intros Hb. apply Qle_bool_iff in Hb.
    rewrite Qabs_pos in Hb by lra.
    assert (Hc : (1 <= inject_Z (10 ^ 21))%Q) by (unfold Qle; simpl; lia). lra. }
  rewrite Hnot. unfold ControlCockpit.to_fixed0.
  assert (Hp : Qle_bool 0 (x * 10) = true) by (apply Qle_bool_iff; lra).
  rewrite Hp.
  pose proof (Qfloor_le (x * 10 + (1 # 2))) as Hf1.
  pose proof (Qlt_floor (x * 10 + (1 # 2))) as Hf2.
  rewrite inject_Z_plus in Hf2. change (inject_Z 1) with 1%Q in Hf2.
  assert (Hz : Qfloor (x * 10 + (1 # 2)) = 0%Z).
  { assert (Ha : (inject_Z (Qfloor (x * 10 + (1 # 2))) < inject_Z 1)%Q) by (change (inject_Z 1) with 1%Q; lra).
    assert (Hb : (inject_Z (-1) < inject_Z (Qfloor (x * 10 + (1 # 2))))%Q) by (change (inject_Z (-1)) with (-1)%Q; lra).
    rewrite <- Zlt_Qlt in Ha, Hb. lia. }
  rewrite Hz. reflexivity.
Qed.

(** X8: the Size column shows the dash exactly when the size is missing
    or zero; otherwise it shows the size in KB to one decimal, within
    0.05 of the byte count divided by 1024, and a non-empty artifact of
    fewer than 51.2 bytes shows as 0.0 KB. *)
Theorem size_kb_cases (a : EvidenceArtifact) :
  match size_kb a with
  | None => forall b, file_size_bytes a = Some b -> (b == 0)%Q
  | Some k => exists b, file_size_bytes a = Some b /\ ~ (b == 0)%Q /\
      (- (1 # 20) <= k - b / 1024 <= 1 # 20)%Q /\
      ((0 < b)%Q -> (b < 256 # 5)%Q -> (k == 0)%Q)
  end.
Proof.
  unfold size_kb. destruct (file_size_bytes a) as [b|]; [|discriminate].
  destruct (Qeq_bool b 0) eqn:E.
  - intros b' Hb. injection Hb as <-. apply Qeq_bool_iff. exact E.
  - exists b. split; [reflexivity|].
    split; [intros H; apply Qeq_bool_iff in H; congruence|].
    split; [apply to_fixed1_close|].
    intros H0 H1. apply to_fixed1_small.
    + apply Qlt_shift_div_l; [reflexivity|lra].
    + apply Qlt_shift_div_r; [reflexivity|]. simpl. lra.
Qed.

(** X9: the control chips and the "+n" badge account for every control id
    exactly once: the chips are the first three ids, the badge counts the
    remaining ones, and no "+0" badge is ever shown. *)
Theorem control_chips_overflow (a : EvidenceArtifact) (l : list string)
    (Hids : control_ids a = Some l) :
  (control_chips a ++ skipn 3 l)%list = l /\
  (length (control_chips a) +
     match control_overflow a with Some n => n | None => 0 end)%nat = length l /\
  control_overflow a <> Some 0%nat.
Proof.
  unfold control_chips, control_overflow. rewrite Hids.
  split; [apply firstn_skipn|].
  rewrite length_firstn.
  destruct (Nat.ltb_spec 3 (length l)); split; try lia;
    [intros Hs; injection Hs as Hs; lia|discriminate].
Qed.

Definition five_controls : EvidenceArtifact :=
  mkArtifact "ev-1" "sys-1" "config_snapshot" "aws" "ab12" (Some 2048%Q)
    (Some ["AC-2"; "AU-6"; "CM-6"; "SC-7"; "SI-4"]) "2025-01-01T00:00:00Z"
    "7y" "cui" "s3://bucket/ev-1".

Lemma control_chips_overflow_witness :
  (control_chips five_controls ++ skipn 3 ["AC-2"; "AU-6"; "CM-6"; "SC-7"; "SI-4"])%list =
    ["AC-2"; "AU-6"; "CM-6"; "SC-7"; "SI-4"] /\
  (length (control_chips five_controls) +
     match control_overflow five_controls with Some n => n | None => 0 end)%nat =
    length ["AC-2"; "AU-6"; "CM-6"; "SC-7"; "SI-4"] /\
  control_overflow five_controls <> Some 0%nat.
Proof. exact (control_chips_overflow five_controls _ eq_refl). Defined.

End EvidenceExplorerProofs.

Section QueryParamsProofs.
Import CloudAccounts QueryParams.
Local Open Scope list_scope.

Lemma url_get_app (k : string) (ps qs : list (string * string)) :
  url_get k (ps ++ qs) =
  match url_get k ps with Some v => Some v | None => url_get k qs end.
Proof.
  induction ps as [|[k' v'] ps IH]; simpl; [reflexivity|].
  destruct (String.eqb k' k); [reflexivity|exact IH].
Qed.

Lemma url_get_absent (k : string) (ps : list (string * string)) :
  existsb (fun p => String.eqb p.1 k) ps = false -> url_get k ps = None.
Proof.
  induction ps as [|[k' v'] ps IH]; simpl; [reflexivity|].
  intros H. apply orb_false_elim in H as [-> H]. exact (IH H).
Qed.

Lemma url_get_filter_other (k k' : string) (ps : list (string * string)) :
  k' <> k ->
  url_get k' (List.filter (fun p => negb (String.eqb p.1 k)) ps) = url_get k' ps.
Proof.
  intros Hne. induction ps as [|[k0 v0] ps IH]; simpl; [reflexivity|].
  destruct (String.eqb_spec k0 k) as [->|N]; simpl.
  - rewrite IH. destruct (String.eqb_spec k k'); [congruence|reflexivity].
  - rewrite IH. reflexivity.
Qed.

Lemma set_first_get_same (k v : string) (ps : list (string * string)) :
  existsb (fun p => String.eqb p.1 k) ps = true -> url_get k (set_first k v ps) = Some v.
Proof.
  induction ps as [|[k' v'] ps IH]; simpl; [discriminate|].
  destruct (String.eqb k' k) eqn:E; simpl.
  - rewrite String.eqb_refl. reflexivity.
  - rewrite E. exact IH.
Qed.

Lemma set_first_get_other (k k' v : string) (ps : list (string * string)) :
  k' <> k -> url_get k' (set_first k v ps) = url_get k' ps.
Proof.
  intros Hne. induction ps as [|[k0 v0] ps IH]; simpl; [reflexivity|].
  destruct (String.eqb_spec k0 k) as [->|N]; simpl.
  - destruct (String.eqb_spec k k'); [congruence|]. apply url_get_filter_other. exact Hne.
  - destruct (String.eqb k0 k'); [reflexivity|exact IH].
Qed.

Lemma url_set_get_same (k v : string) (ps : list (string * string)) :
  url_get k (url_set k v ps) = Some v.
Proof.
  unfold url_set. destruct (existsb (fun p => String.eqb p.1 k) ps) eqn:E.
  - apply set_first_get_same. exact E.
  - rewrite url_get_app, (url_get_absent k ps E). simpl. rewrite String.eqb_refl. reflexivity.
Qed.

Lemma url_set_get_other (k k' v : string) (ps : list (string * string)) :
  k' <> k -> url_get k' (url_set k v ps) = url_get k' ps.
Proof.
  intros Hne. unfold url_set. destruct (existsb (fun p => String.eqb p.1 k) ps).
  - apply set_first_get_other. exact Hne.
  - rewrite url_get_app. destruct (url_get k' ps); [reflexivity|]. simpl.
    destruct (String.eqb_spec k k'); [congruence|reflexivity].
Qed.

Lemma set_if_get_same (k v : string) (ps : list (string * string)) :
  url_get k (set_if k v ps) = if truthy v then Some v else url_get k ps.
Proof. unfold set_if. destruct (truthy v); [apply url_set_get_same|reflexivity]. Qed.

Lemma set_if_get_other (k k' v : string) (ps : list (string * string)) :
  k' <> k -> url_get k' (set_if k v ps) = url_get k' ps.
Proof. intros Hne. unfold set_if. destruct (truthy v); [apply url_set_get_other, Hne|reflexivity]. Qed.

Ltac get_params :=
  repeat first [ rewrite set_if_get_same | rewrite set_if_get_other by discriminate
               | rewrite url_set_get_same | rewrite url_set_get_other by discriminate ].

(** X10: the ControlCockpit and EvidenceExplorer queries carry each filter
    exactly when it is non-empty, with the value typed or selected, and
    never a parameter for an empty filter. *)
Theorem filter_params_get (frameworkFilter statusFilter search typeFilter providerFilter : string) :
  url_get "framework" (cockpit_params frameworkFilter statusFilter search) =
    (if truthy frameworkFilter then Some frameworkFilter else None) /\
  url_get "status" (cockpit_params frameworkFilter statusFilter search) =
    (if truthy statusFilter then Some statusFilter else None) /\
  url_get "search" (cockpit_params frameworkFilter statusFilter search) =
    (if truthy search then Some search else None) /\
  url_get "artifact_type" (evidence_params typeFilter providerFilter) =
    (if truthy typeFilter then Some typeFilter else None) /\
  url_get "provider" (evidence_params typeFilter providerFilter) =
    (if truthy providerFilter then Some providerFilter else None).
Proof.
  unfold cockpit_params, evidence_params. get_params.
  repeat split; reflexivity.
Qed.

(** X11: the DriftTimeline query always asks for [ordering=-created_at]
    (newest first), whatever the filters, and carries the severity and
    resolved filters exactly when they are non-empty. *)
Theorem drift_params_get (severityFilter resolvedFilter : string) :
  url_get "ordering" (drift_params severityFilter resolvedFilter) = Some "-created_at" /\
  url_get "severity" (drift_params severityFilter resolvedFilter) =
    (if truthy severityFilter then Some severityFilter else None) /\
  url_get "resolved" (drift_params severityFilter resolvedFilter) =
    (if truthy resolvedFilter then Some resolvedFilter else None).
Proof.
  unfold drift_params. get_params.
  repeat split; reflexivity.
Qed.

End QueryParamsProofs.

Section DriftStyleProofs.
Import DriftTimeline.

Lemma in_prototype_keys (k : string) :
  In k object_prototype_keys <-> existsb (String.eqb k) object_prototype_keys = true.
Proof.
  rewrite existsb_exists. split.
  - intros H. exists k. split; [exact H|apply String.eqb_refl].
  - intros [x [Hx Heq]]. apply String.eqb_eq in Heq. subst x. exact Hx.
Qed.

Local Ltac known_severity :=
  split; split; intros H; try discriminate;
  exfalso; apply H; left; simpl; auto 10.

Local Ltac not_listed :=
  let H := fresh in
  intros H; simpl in H; repeat destruct H as [H|H]; try congruence; try contradiction.

(** X12: a drift event is drawn with the "info" style exactly when its
    severity is neither one of critical, high, moderate, medium and low
    nor a property every object inherits from Object.prototype (such as
    "constructor" or "toString"): an unknown severity (or "info") falls
    back to info, each of the five known ones gets a style of its own,
    and an inherited name yields an inherited value with no colours
    ([undefined] background, text and border). *)
Theorem style_of_fallback (e : DriftEvent) :
  (style_of e = Some info_style <->
   ~ In (severity e) (["critical"; "high"; "moderate"; "medium"; "low"] ++ object_prototype_keys)%list) /\
  (style_of e = None <-> In (severity e) object_prototype_keys).
Proof.
  rewrite in_app_iff, in_prototype_keys.
  unfold style_of, severityColors_get, severityColors.
  destruct (String.eqb_spec (severity e) "critical") as [->|N1]; [known_severity|].
  destruct (String.eqb_spec (severity e) "high") as [->|N2]; [known_severity|].
  destruct (String.eqb_spec (severity e) "moderate") as [->|N3]; [known_severity|].
  destruct (String.eqb_spec (severity e) "medium") as [->|N4]; [known_severity|].
  destruct (String.eqb_spec (severity e) "low") as [->|N5]; [known_severity|].
  destruct (String.eqb_spec (severity e) "info") as [->|N6].
  - cbn. split; split; intros Hs; try discriminate; try reflexivity.
    intros [H|H]; [revert H; not_listed|discriminate].
  - destruct (existsb (String.eqb (severity e)) object_prototype_keys).
    + split; split; intros Hs; try discriminate; try reflexivity.
      exfalso; apply Hs; right; reflexivity.
    + split; split; intros Hs; try discriminate; try reflexivity.
      intros [H|H]; [revert H; not_listed|discriminate].
Qed.

End DriftStyleProofs.

Section ApprovalsUIProofs.
Import Approvals ApprovalBackend ApprovalsUI.
Local Open Scope list_scope.

Lemma open_card_selected (apps : list ApprovalRequest) (st : UIState) (i : string) :
  open_card apps st = Some i ->
  selectedId st = Some i /\ In i (reviewable_ids apps).
Proof.
  unfold open_card. destruct (selectedId st) as [j|]; [|discriminate].
  destruct (existsb (String.eqb j) (reviewable_ids apps)) eqn:E; [|discriminate].
  intros Hj. injection Hj as <-. split; [reflexivity|].
  apply existsb_exists in E as (x & Hx & Ex). apply String.eqb_eq in Ex. subst. exact Hx.
Qed.




Definition sample_pending (i : string) : ApprovalRequest :=
  mkApprovalRequest i "run-1" "sys-1" "create_poam" "{}" ["AC-2"] "high" "pending"
    "remediation_agent" "" None "" "2025-01-01T00:00:00Z".



(** X14: a UI event either leaves the submitted reviews unchanged or
    submits exactly one: for the open card, which is pending in the list
    fetched at that moment, with status approved or rejected, reviewer
    [admin@example.com] and the notes currently typed. *)
Theorem ui_step_submits (apps : list ApprovalRequest) (st st' : UIState) (ev : UIEvent)
    (Hstep : ui_step apps st ev = Some st') :
  submitted st' = submitted st \/
  exists i d, selectedId st = Some i /\ In i (reviewable_ids apps) /\
    submitted st' = submitted st ++
      [(i, mkReviewBody d "admin@example.com" (reviewNotes st))].
Proof.
  destruct ev as [i|text| |d|]; simpl in Hstep.
  - destruct (_ && _); [|discriminate]. injection Hstep as <-. left. reflexivity.
  - destruct (open_card apps st); [|discriminate]. injection Hstep as <-. left. reflexivity.
  - destruct (open_card apps st); [|discriminate]. injection Hstep as <-. left. reflexivity.
  - destruct (open_card apps st) as [i|] eqn:E; [|discriminate].
    injection Hstep as <-. right. apply open_card_selected in E as [Hs Hi].
    exists i, d. split; [exact Hs|split; [exact Hi|reflexivity]].
  - destruct (submitted st); [discriminate|]. injection Hstep as <-. left. reflexivity.
Qed.

Lemma ui_step_submits_witness :
  ui_step [sample_pending "a1"] (mkUIState (Some "a1") "ok" []) (ClickDecision DApproved) =
    Some (mkUIState (Some "a1") "ok" [("a1", review_body DApproved "ok")]) /\
  (submitted (mkUIState (Some "a1") "ok" [("a1", review_body DApproved "ok")]) =
     submitted (mkUIState (Some "a1") "ok" []) \/
   exists i d, selectedId (mkUIState (Some "a1") "ok" []) = Some i /\
     In i (reviewable_ids [sample_pending "a1"]) /\
     submitted (mkUIState (Some "a1") "ok" [("a1", review_body DApproved "ok")]) =
       submitted (mkUIState (Some "a1") "ok" []) ++
         [(i, mkReviewBody d "admin@example.com" (reviewNotes (mkUIState (Some "a1") "ok" [])))]).
Proof.
  split; [reflexivity|].
  exact (ui_step_submits [sample_pending "a1"] (mkUIState (Some "a1") "ok" [])
           (mkUIState (Some "a1") "ok" [("a1", review_body DApproved "ok")])
           (ClickDecision DApproved) eq_refl).
Defined.

(** X15: notes typed for one pending card are not cleared when the
    reviewer clicks Review on another card; a decision taken there is
    submitted with those notes. *)
Theorem ui_notes_carry_over (apps : list ApprovalRequest) (a b notes : string) (d : Decision)
    (Ha : In a (reviewable_ids apps)) (Hb : In b (reviewable_ids apps)) (Hab : a <> b) :
  ui_run ui_init
    [(apps, ClickReview a); (apps, TypeNotes notes); (apps, ClickReview b);
     (apps, ClickDecision d)] =
  Some (mkUIState (Some b) notes [(b, review_body d notes)]).
Proof.
  assert (Hin : forall x, In x (reviewable_ids apps) ->
                  existsb (String.eqb x) (reviewable_ids apps) = true).
  { intros x Hx. apply existsb_exists. exists x. split; [exact Hx|apply String.eqb_refl]. }
  simpl. rewrite (Hin a Ha). simpl.
  unfold open_card. simpl. rewrite (Hin a Ha). simpl.
  rewrite (Hin b Hb). simpl.
  destruct (String.eqb_spec a b); [contradiction|]. simpl.
  rewrite (Hin b Hb). reflexivity.
Qed.

Lemma ui_notes_carry_over_witness :
  ui_run ui_init
    [([sample_pending "a1"; sample_pending "a2"], ClickReview "a1");
     ([sample_pending "a1"; sample_pending "a2"], TypeNotes "for a1");
     ([sample_pending "a1"; sample_pending "a2"], ClickReview "a2");
     ([sample_pending "a1"; sample_pending "a2"], ClickDecision DRejected)] =
  Some (mkUIState (Some "a2") "for a1" [("a2", review_body DRejected "for a1")]).
Proof.
  apply ui_notes_carry_over.
  - simpl. tauto.
  - simpl. tauto.
  - discriminate.
Defined.

End ApprovalsUIProofs.
